(** * repo-fetch: the fetch-and-render flow of [App.tsx]

    A shallow embedding of the TypeScript module: [fetchRepositories], the
    [Repo] and [RepoList] components, the [highlightElement] / [blurElement]
    pair and the event handlers that [App] installs.

    The module runs in one browser tab.  Everything it touches is kept in an
    explicit state: the constant [user] and the cell of the [useState] hook
    behind it, the two refs, the inline styles and focus of the DOM, and the
    log of the HTTP requests handed to [fetch].  The network is an oracle
    that tells how a request settles.  The [focus()] and [blur()] methods of
    the DOM send their events before they return, so the handlers of the
    username field run inside them. *)

From Stdlib Require Import NArith DecimalString.
From Stdlib Require DecimalPos DecimalN.
From stdpp Require Import base option strings list gmap.

Open Scope string_scope.
Set Warnings "-register-all".

(** ** JavaScript values *)

(** The values the module handles at run time.  A [promise] is recorded in
    the state it has once the event loop has run as far as it can. *)
Inductive value : Type :=
  | VUndefined
  | VNull
  | VBool (b : bool)
  | VNum (n : Z)
  | VStr (s : string)
  | VArr (items : list value)
  | VObj (fields : list (string * value))
  | VError (name message : string)
  | VBuiltin (path : string)
  | VPromise (p : promise)
with promise : Type :=
  | Pending
  | Fulfilled (v : value)
  | Rejected (e : value).

(** What [response.json()] can parse: JSON text has no [undefined], no
    functions, no errors and no promises. *)
Inductive json : Type :=
  | JNull
  | JBool (b : bool)
  | JNum (n : Z)
  | JStr (s : string)
  | JArr (items : list json)
  | JObj (fields : list (string * json)).

Fixpoint of_json (j : json) : value :=
  match j with
  | JNull => VNull
  | JBool b => VBool b
  | JNum n => VNum n
  | JStr s => VStr s
  | JArr items => VArr (map of_json items)
  | JObj fields => VObj (map (fun kv => (fst kv, of_json (snd kv))) fields)
  end.

(** [String(n)] for a non-negative integer. *)
Definition string_of_N (n : N) : string := NilZero.string_of_uint (N.to_uint n).

Definition index_keys (n : nat) : list string :=
  map (fun i => string_of_N (N.of_nat i)) (seq 0 n).

(** The keys a [for (k in o)] loop visits: the enumerable string-keyed
    properties of [o] and of its prototype chain.  Arrays and strings expose
    their indices, plain objects their fields.  An [Error] keeps [message] and
    [stack] non-enumerable, and a [Promise] has no own properties while the
    methods of [Promise.prototype] and [Object.prototype] are non-enumerable;
    primitives, [null] and [undefined] give no iteration at all. *)
Definition for_in_keys (o : value) : list string :=
  match o with
  | VArr items => index_keys (length items)
  | VStr s => index_keys (String.length s)
  | VObj fields => map fst fields
  | VUndefined | VNull | VBool _ | VNum _ => []
  | VError _ _ => []
  | VBuiltin _ => []
  | VPromise _ => []
  end.

Fixpoint assoc (k : string) (fields : list (string * value)) : option value :=
  match fields with
  | [] => None
  | (k', v) :: rest => if String.eqb k k' then Some v else assoc k rest
  end.

(** [o[k]] for a string key.  A missing property reads as [undefined]; on
    a string primitive, which is what a [for...in] variable holds, the key
    [link] finds the legacy method [String.prototype.link], and [name]
    finds nothing. *)
Definition get_prop (o : value) (k : string) : value :=
  match o with
  | VObj fields => default VUndefined (assoc k fields)
  | VStr _ => if String.eqb k "link" then VBuiltin "String.prototype.link" else VUndefined
  | VError _ message => if String.eqb k "message" then VStr message else VUndefined
  | _ => VUndefined
  end.

(** ** React elements *)

Inductive ReactElement : Type :=
  | Text (v : value)
  | Elem (tag : string) (props : list (string * value)) (children : list ReactElement).

(** ** The network *)

(** [fetch(url)] with no second argument: method [GET] and no header chosen
    by the caller. *)
Record Request : Type := {
  req_method : string;
  req_url : string;
  req_headers : list (string * string)
}.

Inductive body_outcome : Type :=
  | BodyJson (j : json)
  | BodySyntaxError (message : string)
  | BodyPending.

Record Response : Type := {
  status : N;
  body : body_outcome
}.

(** [response.ok]: the status is in the range 200-299. *)
Definition ok (r : Response) : bool :=
  ((200 <=? status r) && (status r <=? 299))%N.

Inductive fetch_outcome : Type :=
  | NetResponse (r : Response)
  | NetError (message : string)
  | NetPending.

(** How the n-th request issued by the page settles. *)
Definition Network : Type := nat -> Request -> fetch_outcome.

(** ** The page *)

Definition elem_id : Type := nat.

(** The four sides of the inline border.  Assigning the [border] shorthand
    writes all four, assigning [borderLeft] the left one only. *)
Record CSSStyleDeclaration : Type := {
  border_top : string;
  border_right : string;
  border_bottom : string;
  border_left : string
}.

Record HTMLInputElement : Type := {
  input_type : string;
  style : CSSStyleDeclaration
}.

Record RefObject : Type := { current : option elem_id }.

(** [user] is the constant that the destructuring at the top of the module
    binds, once, when the module is loaded; [user_hook] is the cell of the
    [useState] hook, the one thing [setUser] writes. *)
Record AppState : Type := {
  user : string;
  user_hook : string;
  submitButton : RefObject;
  userInput : RefObject;
  document : gmap elem_id HTMLInputElement;
  activeElement : option elem_id;
  requests : list Request
}.

Definition set_user (u : string) (st : AppState) : AppState :=
  {| user := u; user_hook := user_hook st;
     submitButton := submitButton st; userInput := userInput st;
     document := document st; activeElement := activeElement st;
     requests := requests st |}.

Definition set_document (d : gmap elem_id HTMLInputElement) (st : AppState) : AppState :=
  {| user := user st; user_hook := user_hook st;
     submitButton := submitButton st; userInput := userInput st;
     document := d; activeElement := activeElement st;
     requests := requests st |}.

Definition set_activeElement (a : option elem_id) (st : AppState) : AppState :=
  {| user := user st; user_hook := user_hook st;
     submitButton := submitButton st; userInput := userInput st;
     document := document st; activeElement := a;
     requests := requests st |}.

Definition set_requests (rs : list Request) (st : AppState) : AppState :=
  {| user := user st; user_hook := user_hook st;
     submitButton := submitButton st; userInput := userInput st;
     document := document st; activeElement := activeElement st;
     requests := rs |}.

Definition set_user_hook (v : string) (st : AppState) : AppState :=
  {| user := user st; user_hook := v;
     submitButton := submitButton st; userInput := userInput st;
     document := document st; activeElement := activeElement st;
     requests := requests st |}.

(** ** Computations: state, exceptions, and awaits that never resume *)

Inductive outcome (A : Type) : Type :=
  | Done (a : A)
  | Threw (e : value)
  | Hang.
Arguments Done {A} a.
Arguments Threw {A} e.
Arguments Hang {A}.

Definition M (A : Type) : Type := AppState -> outcome A * AppState.

#[global] Instance M_ret : MRet M := fun A a st => (Done a, st).

#[global] Instance M_bind : MBind M := fun A B f m st =>
  match m st with
  | (Done a, st') => f a st'
  | (Threw e, st') => (Threw e, st')
  | (Hang, st') => (Hang, st')
  end.

Definition throw {A : Type} (e : value) : M A := fun st => (Threw e, st).

Definition try_catch {A : Type} (body : M A) (handler : value -> M A) : M A :=
  fun st =>
    match body st with
    | (Threw e, st') => handler e st'
    | r => r
    end.

Definition gets {A : Type} (f : AppState -> A) : M A := fun st => (Done (f st), st).

Definition modify (f : AppState -> AppState) : M unit := fun st => (Done tt, f st).

(** Calling an [async] function gives a promise at once and never throws:
    a [return] fulfils the promise, an uncaught [throw] rejects it, and an
    [await] that never resumes leaves it pending. *)
Definition async (body : M value) : M promise := fun st =>
  match body st with
  | (Done v, st') => (Done (Fulfilled v), st')
  | (Threw e, st') => (Done (Rejected e), st')
  | (Hang, st') => (Done Pending, st')
  end.

(** [await fetch(url)]: the request is handed to the network, and the
    caller resumes with the response, with the [TypeError] of a failed
    request, or not at all. *)
Definition fetch (net : Network) (url : string) : M Response := fun st =>
  let req := {| req_method := "GET"; req_url := url; req_headers := [] |} in
  let st' := set_requests (requests st ++ [req])%list st in
  match net (length (requests st)) req with
  | NetResponse r => (Done r, st')
  | NetError message => (Threw (VError "TypeError" message), st')
  | NetPending => (Hang, st')
  end.

(** [await response.json()]. *)
Definition response_json (r : Response) : M value := fun st =>
  match body r with
  | BodyJson j => (Done (of_json j), st)
  | BodySyntaxError message => (Threw (VError "SyntaxError" message), st)
  | BodyPending => (Hang, st)
  end.

(** ** [fetchRepositories] *)

Definition repos_url (username : string) : string :=
  "api.github.com/users/" +:+ username +:+ "/repos".

Definition http_error (r : Response) : value :=
  VError "Error" ("HTTP error! Status code: " +:+ string_of_N (status r)).

Definition fetchRepositories (net : Network) (username : string) : M promise :=
  async
    (try_catch
       (response ← fetch net (repos_url username);
        if negb (ok response) then throw (http_error response)
        else
          data ← response_json response;
          mret data)
       (fun err => mret err)).

(** ** The components *)

Definition Repo (name : value) (styles : string) (link : value) : ReactElement :=
  Elem "li" [("className", VStr styles)]
    [Elem "a" [("href", link)] [Text name]].

(** [for (x in o) body], threading the array the body pushes to. *)
Fixpoint for_in_loop {A : Type} (keys : list string) (body : string -> A -> M A) (acc : A) : M A :=
  match keys with
  | [] => mret acc
  | key :: rest => acc' ← body key acc; for_in_loop rest body acc'
  end.

Definition for_in {A : Type} (o : value) (body : string -> A -> M A) (acc : A) : M A :=
  for_in_loop (for_in_keys o) body acc.

(** The file is an ES module, hence strict code: storing to a name that no
    [let], [const] or [var] declares throws a [ReferenceError]. *)
Definition assign_undeclared (x : string) (v : value) : M value :=
  throw (VError "ReferenceError" (x +:+ " is not defined")).

(** The loop of [RepoList] over the promise it was handed. *)
Definition listItems_of (styles : string) (repositories : promise) : M (list ReactElement) :=
  for_in (VPromise repositories)
    (fun key listItems =>
       repo ← assign_undeclared "repo" (VStr key);
       mret (listItems ++ [Repo (get_prop repo "name") styles (get_prop repo "link")])%list)
    [].

Definition RepoList (net : Network) : M ReactElement :=
  u ← gets user;
  repositories ← fetchRepositories net u;
  let styles := "" in
  listItems ← listItems_of styles repositories;
  mret (Elem "ul" [] listItems).

(** The promise that the first statement of [RepoList] binds to
    [repositories]. *)
Definition RepoList_repositories (net : Network) : M promise :=
  u ← gets user;
  fetchRepositories net u.

(** ** Focus and blur of the input pair *)

Definition set_border (v : string) (e : HTMLInputElement) : HTMLInputElement :=
  {| input_type := input_type e;
     style := {| border_top := v; border_right := v; border_bottom := v; border_left := v |} |}.

Definition set_borderLeft (v : string) (e : HTMLInputElement) : HTMLInputElement :=
  {| input_type := input_type e;
     style := {| border_top := border_top (style e); border_right := border_right (style e);
                 border_bottom := border_bottom (style e); border_left := v |} |}.

Definition update_element (f : HTMLInputElement -> HTMLInputElement) (el : elem_id) : M unit :=
  modify (fun st => set_document (alter f el (document st)) st).

(** [highlightElement] and [blurElement], with the [focus()] and [blur()]
    methods of the elements as parameters. *)
Definition highlightElement_with (focus : elem_id -> M unit) (ref self : RefObject) : M unit :=
  let refElement := current ref in
  _ ← match refElement with
      | Some el =>
          _ ← update_element (set_border "2px solid white") el;
          update_element (set_borderLeft "2px solid #151b23") el
      | None => mret tt
      end;
  match current self with
  | Some el => focus el
  | None => mret tt
  end.

Definition blurElement_with (blur : elem_id -> M unit) (ref self : RefObject) : M unit :=
  _ ← match current ref with
      | Some el => update_element (set_border "none") el
      | None => mret tt
      end;
  match current self with
  | Some el => blur el
  | None => mret tt
  end.

(** A focus or blur event reaches [el] while [focus()] or [blur()] is still
    running.  The username field, the element the [userInput] ref is
    attached to, is the only one with handlers for these events.  What a
    handler throws is reported to the window and does not reach the caller
    of [focus()] or [blur()]. *)
Definition dispatch (el : elem_id) (handler : M unit) : M unit := fun st =>
  if decide (current (userInput st) = Some el) then
    match handler st with
    | (Threw _, st') => (Done tt, st')
    | r => r
    end
  else (Done tt, st).

(** [el.focus()]: nothing happens if [el] has the focus already; otherwise
    the element that had it loses it and is sent a blur event, then [el] is
    the active element and is sent a focus event. *)
Definition focus_with (onBlur onFocus : M unit) (el : elem_id) : M unit := fun st =>
  if decide (activeElement st = Some el) then (Done tt, st)
  else
    (_ ← match activeElement st with
         | Some old => _ ← modify (set_activeElement None); dispatch old onBlur
         | None => mret tt
         end;
     _ ← modify (set_activeElement (Some el));
     dispatch el onFocus) st.

(** [el.blur()]: nothing happens unless [el] has the focus; then no element
    has it and [el] is sent a blur event. *)
Definition blur_with (onBlur : M unit) (el : elem_id) : M unit := fun st =>
  if decide (activeElement st = Some el) then
    (_ ← modify (set_activeElement None); dispatch el onBlur) st
  else (Done tt, st).

(** The two handlers of the username field, as run from inside [focus()]
    or [blur()] with room for [n] levels of handlers; a nesting deeper than
    that does not return. *)
Fixpoint onBlur_at (n : nat) : M unit :=
  match n with
  | O => fun st => (Hang, st)
  | S n =>
      submit ← gets submitButton;
      input ← gets userInput;
      blurElement_with (blur_with (onBlur_at n)) submit input
  end.

Fixpoint onFocus_at (n : nat) : M unit :=
  match n with
  | O => fun st => (Hang, st)
  | S n =>
      submit ← gets submitButton;
      input ← gets userInput;
      highlightElement_with (focus_with (onBlur_at n) (onFocus_at n)) submit input
  end.

(** One level is all a handler run from [focus()] or [blur()] needs: the
    [focus()] or [blur()] it calls finds the focus already in place. *)
Definition focus (el : elem_id) : M unit :=
  focus_with (onBlur_at 1) (onFocus_at 1) el.

Definition blur (el : elem_id) : M unit :=
  blur_with (onBlur_at 1) el.

Definition highlightElement (ref self : RefObject) : M unit :=
  highlightElement_with focus ref self.

Definition blurElement (ref self : RefObject) : M unit :=
  blurElement_with blur ref self.

(** ** The handlers installed by [App] *)

(** The setter of the hook stores the value in the cell of the hook.  The
    constant [user] was bound when the module was loaded, and the module is
    not evaluated again. *)
Definition setUser (v : string) : M unit := modify (set_user_hook v).

(** [e => { e.preventDefault(); fetchRepositories(user) }] *)
Definition onSubmit (net : Network) : M unit :=
  u ← gets user;
  _ ← fetchRepositories net u;
  mret tt.

Definition onFocus : M unit :=
  submit ← gets submitButton;
  input ← gets userInput;
  highlightElement submit input.

Definition onBlur : M unit :=
  submit ← gets submitButton;
  input ← gets userInput;
  blurElement submit input.

Definition onChange (v : string) : M unit := setUser v.

(** The user moves the focus into the username field: the browser makes the
    field the active element and then runs its [onFocus] handler. *)
Definition username_gains_focus : M unit :=
  input ← gets userInput;
  _ ← modify (set_activeElement (current input));
  onFocus.

(** ** Reading a rendered list *)

Definition children (e : ReactElement) : list ReactElement :=
  match e with
  | Elem _ _ cs => cs
  | Text _ => []
  end.

Definition prop (k : string) (e : ReactElement) : value :=
  match e with
  | Elem _ props _ => default VUndefined (assoc k props)
  | Text _ => VUndefined
  end.

(** The label and the link target of one [<li><a href=..>label</a></li>]. *)
Definition entry_label (li : ReactElement) : value :=
  match children li with
  | [a] => match children a with [Text v] => v | _ => VUndefined end
  | _ => VUndefined
  end.

Definition entry_link (li : ReactElement) : value :=
  match children li with
  | [a] => prop "href" a
  | _ => VUndefined
  end.

(** What a render displays: the items of the list, if the render returned. *)
Definition displayed (net : Network) (st : AppState) : option (list ReactElement) :=
  match fst (RepoList net st) with
  | Done ul => Some (children ul)
  | _ => None
  end.

(** ** The words of the specification *)

(** The request [fetchRepositories] hands to [fetch] for a user name. *)
Definition repos_request (username : string) : Request :=
  {| req_method := "GET"; req_url := repos_url username; req_headers := [] |}.

(** The three ways a fetch fails, with the error object each one raises. *)
Inductive fetch_failure : fetch_outcome -> value -> Prop :=
  | network_failure message :
      fetch_failure (NetError message) (VError "TypeError" message)
  | http_failure r :
      ok r = false -> fetch_failure (NetResponse r) (http_error r)
  | parse_failure r message :
      ok r = true -> body r = BodySyntaxError message ->
      fetch_failure (NetResponse r) (VError "SyntaxError" message).

Inductive fetch_success : fetch_outcome -> value -> Prop :=
  | parsed r j :
      ok r = true -> body r = BodyJson j ->
      fetch_success (NetResponse r) (of_json j).

(** Render mapping as the specification words it: one entry per record of a
    successful result, labelled with the record's name and linking to its
    url; no entry for anything else. *)
Definition spec_render (result : promise) : list ReactElement :=
  match result with
  | Fulfilled (VArr records) =>
      map (fun r => Repo (get_prop r "name") "" (get_prop r "url")) records
  | _ => []
  end.

(** Control flow as the specification words it: what is displayed after a
    submission is the rendering of the result of the fetch that the
    submission started. *)
Definition submission_result_is_rendered (net : Network) (st : AppState) : Prop :=
  forall result,
    fst (fetchRepositories net (user st) st) = Done result ->
    displayed net (snd (onSubmit net st)) = Some (spec_render result).

Definition str_contains (needle hay : string) : Prop :=
  exists before after, hay = before +:+ needle +:+ after.

(** The treatment [highlightElement] gives the other control. *)
Definition focused_style : CSSStyleDeclaration :=
  {| border_top := "2px solid white"; border_right := "2px solid white";
     border_bottom := "2px solid white"; border_left := "2px solid #151b23" |}.

(** ** Sample pages and networks *)

Definition no_style : CSSStyleDeclaration :=
  {| border_top := ""; border_right := ""; border_bottom := ""; border_left := "" |}.

(** The page once React has mounted the form: element 0 is the username
    field, element 1 the submit control, nothing has the focus. *)
Definition mounted (u : string) : AppState :=
  {| user := u;
     user_hook := u;
     submitButton := {| current := Some 1 |};
     userInput := {| current := Some 0 |};
     document := {[ 0 := {| input_type := "text"; style := no_style |};
                    1 := {| input_type := "submit"; style := no_style |} ]};
     activeElement := None;
     requests := [] |}.

Definition respond (r : Response) : Network := fun _ _ => NetResponse r.

Definition hello_world : json :=
  JObj [("name", JStr "Hello-World");
        ("url", JStr "https://github.com/octocat/Hello-World")].

Definition nameless : json :=
  JObj [("url", JStr "https://github.com/octocat/Spoon-Knife")].

Definition one_repository : Response :=
  {| status := 200; body := BodyJson (JArr [hello_world]) |}.


Definition not_found : Response :=
  {| status := 404; body := BodyJson (JObj [("message", JStr "Not Found")]) |}.

(** A network that answers the first request of the page with [r] and every
    later one with [r']. *)
Definition respond_first (r r' : Response) : Network := fun n _ =>
  match n with
  | O => NetResponse r
  | S _ => NetResponse r'
  end.

(** ** The page as a machine of events *)

(** The username field loses the focus to [to] ([None]: to no element).  The
    browser moves the focus and then runs the [onBlur] handler of the
    field. *)
Definition username_loses_focus (to : option elem_id) : M unit :=
  _ ← modify (set_activeElement to);
  onBlur.

(** What can happen to the page [App] describes: the handlers it installs on
    the form and on the username field, and a render of [<RepoList />]. *)
Inductive event : Type :=
  | Change (v : string)
  | Submit
  | FocusIn
  | FocusOut (to : option elem_id)
  | Render.

Definition handle (net : Network) (ev : event) : M unit :=
  match ev with
  | Change v => onChange v
  | Submit => onSubmit net
  | FocusIn => username_gains_focus
  | FocusOut to => username_loses_focus to
  | Render => _ ← RepoList net; mret tt
  end.

Fixpoint run_events (net : Network) (evs : list event) : M unit :=
  match evs with
  | [] => mret tt
  | ev :: rest => _ ← handle net ev; run_events net rest
  end.

(** The text in the cell of the hook after the events, starting from [u]. *)
Fixpoint last_change (evs : list event) (u : string) : string :=
  match evs with
  | [] => u
  | Change v :: rest => last_change rest v
  | _ :: rest => last_change rest u
  end.

(** The requests the events put on the wire when [user] is [u]: one for
    each submission and each render. *)
Fixpoint issued (evs : list event) (u : string) : list Request :=
  match evs with
  | [] => []
  | Submit :: rest | Render :: rest => repos_request u :: issued rest u
  | Change _ :: rest | FocusIn :: rest | FocusOut _ :: rest => issued rest u
  end.

(** What a run of events may change between two pages: the cell of the hook
    holds the last text typed while [user] stays, the log grows by the
    requests issued, the refs stay, no element but the submit control is
    written to, and no element appears, disappears or changes its type. *)
Definition evolves (evs : list event) (st st' : AppState) : Prop :=
  user st' = user st
  /\ user_hook st' = last_change evs (user_hook st)
  /\ requests st' = (requests st ++ issued evs (user st))%list
  /\ submitButton st' = submitButton st
  /\ userInput st' = userInput st
  /\ (forall id, current (submitButton st) <> Some id ->
                 document st' !! id = document st !! id)
  /\ (forall id, input_type <$> document st' !! id = input_type <$> document st !! id).

(** [v instanceof Error] *)
Definition is_error (v : value) : bool :=
  match v with
  | VError _ _ => true
  | _ => false
  end.

(** The inline border [blurElement] leaves on the other control. *)
Definition blurred_style : CSSStyleDeclaration :=
  {| border_top := "none"; border_right := "none";
     border_bottom := "none"; border_left := "none" |}.

(** A network that never answers. *)
Definition silent : Network := fun _ _ => NetPending.

(** ** What focus and blur write *)

(** The writes of [highlightElement] and of [blurElement] to the element
    of their first ref, on the document alone. *)
Definition highlighted (r : option elem_id) (d : gmap elem_id HTMLInputElement) :
    gmap elem_id HTMLInputElement :=
  match r with
  | Some el =>
      alter (set_borderLeft "2px solid #151b23") el
        (alter (set_border "2px solid white") el d)
  | None => d
  end.

Definition blurred (r : option elem_id) (d : gmap elem_id HTMLInputElement) :
    gmap elem_id HTMLInputElement :=
  match r with
  | Some el => alter (set_border "none") el d
  | None => d
  end.

(** The document after [el.focus()] on an element that did not have the
    focus: the handlers of the username field have run if it lost or gained
    the focus. *)
Definition focus_document (st : AppState) (el : elem_id) : gmap elem_id HTMLInputElement :=
  let d :=
    match activeElement st with
    | Some old =>
        if decide (current (userInput st) = Some old)
        then blurred (current (submitButton st)) (document st)
        else document st
    | None => document st
    end in
  if decide (current (userInput st) = Some el)
  then highlighted (current (submitButton st)) d
  else d.

(** The document after [el.blur()] on the element that had the focus. *)
Definition blur_document (st : AppState) (el : elem_id) : gmap elem_id HTMLInputElement :=
  if decide (current (userInput st) = Some el)
  then blurred (current (submitButton st)) (document st)
  else document st.

(** A step that only restyles: it keeps the data, the refs, the elements
    and their types, and writes to no element but the submit control and
    [other]. *)
Definition restyles (other : option elem_id) (st st' : AppState) : Prop :=
  user st' = user st
  /\ user_hook st' = user_hook st
  /\ requests st' = requests st
  /\ submitButton st' = submitButton st
  /\ userInput st' = userInput st
  /\ (forall id, input_type <$> document st' !! id = input_type <$> document st !! id)
  /\ (forall id, current (submitButton st) <> Some id -> other <> Some id ->
                 document st' !! id = document st !! id).

(** * Properties *)

(** ** [fetchRepositories] *)

Ltac run_fetch :=
  unfold fetchRepositories, async, try_catch, mbind, M_bind, mret, M_ret,
    fetch, response_json, throw; fold repos_request.

Ltac by_network net st :=
  match goal with
  | |- context [net (length (requests st)) ?req] =>
      destruct (net (length (requests st)) req) as [r | message |] eqn:Hnet
  end.

Ltac by_response r :=
  destruct (ok r) eqn:Hok; simpl; [destruct (body r) as [j | message |] eqn:Hbody |].

(** A call issues one request, the [GET] of [repos_url], and changes nothing
    else of the page. *)
Lemma fetchRepositories_state net username st :
  snd (fetchRepositories net username st)
  = set_requests (requests st ++ [repos_request username]) st.
Proof.
  run_fetch. unfold repos_request.
  by_network net st; [by_response r |..]; reflexivity.
Qed.

(** The call returns a promise; it does not throw and does not block. *)
Lemma fetchRepositories_returns net username st :
  exists p, fst (fetchRepositories net username st) = Done p.
Proof.
  run_fetch.
  by_network net st; [by_response r |..]; eexists; reflexivity.
Qed.

Lemma fetchRepositories_on_failure net username st err :
  fetch_failure (net (length (requests st)) (repos_request username)) err ->
  fst (fetchRepositories net username st) = Done (Fulfilled err).
Proof.
  intros Hfail. run_fetch. unfold repos_request in *.
  inversion Hfail as [message Hnet | r Hok Hnet | r message Hok Hbody Hnet]; subst.
  - reflexivity.
  - rewrite Hok. reflexivity.
  - rewrite Hok. simpl. rewrite Hbody. reflexivity.
Qed.

Lemma fetchRepositories_on_success net username st data :
  fetch_success (net (length (requests st)) (repos_request username)) data ->
  fst (fetchRepositories net username st) = Done (Fulfilled data).
Proof.
  intros Hsucc. run_fetch. unfold repos_request in *.
  inversion Hsucc as [r j Hok Hbody Hnet]; subst.
  rewrite Hok. simpl. rewrite Hbody. reflexivity.
Qed.


(** The promise depends on the page only through the user name passed in
    and the position of the request in the log. *)
Lemma fetchRepositories_fst_ext net1 net2 username st1 st2 :
  net1 (length (requests st1)) (repos_request username)
  = net2 (length (requests st2)) (repos_request username) ->
  fst (fetchRepositories net1 username st1) = fst (fetchRepositories net2 username st2).
Proof.
  intros Heq. run_fetch. unfold repos_request in *.
  rewrite Heq.
  by_network net2 st2; [by_response r |..]; reflexivity.
Qed.

(** ** [RepoList] *)

Ltac run_M := unfold mbind, M_bind, mret, M_ret, gets, modify; simpl.

Lemma RepoList_run net st :
  RepoList net st
  = (Done (Elem "ul" [] []),
     set_requests (requests st ++ [repos_request (user st)]) st).
Proof.
  unfold RepoList. run_M.
  destruct (fetchRepositories_returns net (user st) st) as [p Hp].
  pose proof (fetchRepositories_state net (user st) st) as Hst.
  destruct (fetchRepositories net (user st) st) as [o st']; simpl in *; subst.
  reflexivity.
Qed.


(** C9: whatever promise [fetchRepositories] hands back (fulfilled with the
    parsed data, fulfilled with the caught error, or still pending), the
    [for...in] loop of [RepoList] finds no enumerable key on it and pushes
    nothing, so every render is the empty list. *)
Theorem RepoList_renders_empty_list net st :
  (forall styles repositories st',
     for_in_keys (VPromise repositories) = []
     /\ listItems_of styles repositories st' = (Done [], st'))
  /\ fst (RepoList net st) = Done (Elem "ul" [] [])
  /\ displayed net st = Some [].
Proof.
  split; [intros; split; reflexivity |].
  unfold displayed. rewrite RepoList_run. split; reflexivity.
Qed.

(** C1: for the user [octocat] and a 200 response whose body is the array
    with the one record Hello-World, the fetch is fulfilled with that array
    and the specification asks for one entry labelled Hello-World and linked
    to the record's url, but [RepoList] displays no entry. *)
Theorem RepoList_drops_fetched_records :
  let net := respond one_repository in
  let st := mounted "octocat" in
  fst (fetchRepositories net "octocat" st) = Done (Fulfilled (VArr [of_json hello_world]))
  /\ map entry_label (spec_render (Fulfilled (VArr [of_json hello_world])))
     = [VStr "Hello-World"]
  /\ map entry_link (spec_render (Fulfilled (VArr [of_json hello_world])))
     = [VStr "https://github.com/octocat/Hello-World"]
  /\ fst (RepoList net st) = Done (Elem "ul" [] [])
  /\ displayed net st = Some [].
Proof. repeat split. Qed.

(** C6: for a 200 response whose second record has no name, the
    specification asks for two entries, the second with a blank label, but
    [RepoList] displays neither the incomplete record nor the complete
    one. *)
Theorem RepoList_drops_incomplete_and_complete_records :
  let net := respond {| status := 200; body := BodyJson (JArr [hello_world; nameless]) |} in
  let st := mounted "octocat" in
  fst (fetchRepositories net "octocat" st)
  = Done (Fulfilled (VArr [of_json hello_world; of_json nameless]))
  /\ map entry_label (spec_render (Fulfilled (VArr [of_json hello_world; of_json nameless])))
     = [VStr "Hello-World"; VUndefined]
  /\ fst (RepoList net st) = Done (Elem "ul" [] [])
  /\ displayed net st = Some [].
Proof. repeat split. Qed.

(** ** Failures of the fetch *)



(** C4: when the response to the request has status 404, the promise of
    [fetchRepositories] is fulfilled with an [Error] whose message contains
    404, and the render of a page whose user is that user name displays no
    entry. *)
Theorem status_404_is_reported net username st r
    (Hnet : net (length (requests st)) (repos_request username) = NetResponse r)
    (Hstatus : status r = 404%N) :
  (exists message,
     fst (fetchRepositories net username st) = Done (Fulfilled (VError "Error" message))
     /\ str_contains "404" message)
  /\ displayed net (set_user username st) = Some [].
Proof.
  split.
  - exists ("HTTP error! Status code: " +:+ "404"). split.
    + assert (Hfail : fetch_failure (net (length (requests st)) (repos_request username))
                        (http_error r)).
      { rewrite Hnet. constructor. unfold ok. rewrite Hstatus. reflexivity. }
      rewrite (fetchRepositories_on_failure _ _ _ _ Hfail).
      unfold http_error. rewrite Hstatus. reflexivity.
    + exists "HTTP error! Status code: ", "". reflexivity.
  - unfold displayed. rewrite RepoList_run. reflexivity.
Qed.

Lemma status_404_is_reported_witness :
  (exists message,
     fst (fetchRepositories (respond not_found) "octocat" (mounted ""))
     = Done (Fulfilled (VError "Error" message))
     /\ str_contains "404" message)
  /\ displayed (respond not_found) (set_user "octocat" (mounted "")) = Some [].
Proof.
  apply (status_404_is_reported (respond not_found) "octocat" (mounted "") not_found);
    reflexivity.
Defined.

(** C10: the parsed data of a successful fetch and the error of a failed
    one leave [fetchRepositories] the same way, as the value that fulfils
    the returned promise; neither the promise nor the value carries a mark
    of success or failure. *)
Theorem fetchRepositories_result_is_untagged net username st v
    (Hsettled : fetch_success (net (length (requests st)) (repos_request username)) v
                \/ fetch_failure (net (length (requests st)) (repos_request username)) v) :
  fst (fetchRepositories net username st) = Done (Fulfilled v).
Proof.
  destruct Hsettled as [Hsucc | Hfail].
  - exact (fetchRepositories_on_success net username st v Hsucc).
  - exact (fetchRepositories_on_failure net username st v Hfail).
Qed.

Lemma fetchRepositories_result_is_untagged_witness :
  fst (fetchRepositories (respond one_repository) "octocat" (mounted ""))
  = Done (Fulfilled (VArr [of_json hello_world]))
  /\ fst (fetchRepositories (respond not_found) "octocat" (mounted ""))
     = Done (Fulfilled (VError "Error" "HTTP error! Status code: 404")).
Proof.
  split.
  - apply (fetchRepositories_result_is_untagged (respond one_repository) "octocat"
             (mounted "") (of_json (JArr [hello_world]))).
    left. apply (parsed one_repository (JArr [hello_world])); reflexivity.
  - apply (fetchRepositories_result_is_untagged (respond not_found) "octocat"
             (mounted "") (http_error not_found)).
    right. apply (http_failure not_found). reflexivity.
Defined.

(** ** The request *)

(** C5: for the user [octocat] the call issues one request, a [GET] without
    headers, but its URL is [api.github.com/users/octocat/repos]: it does
    not start with the [https] scheme, for this user name or any other. *)
Theorem fetchRepositories_url_lacks_https net :
  requests (snd (fetchRepositories net "octocat" (mounted "octocat")))
  = [ {| req_method := "GET";
         req_url := "api.github.com/users/octocat/repos";
         req_headers := [] |} ]
  /\ String.prefix "https://" "api.github.com/users/octocat/repos" = false
  /\ forall username, String.prefix "https://" (repos_url username) = false.
Proof.
  rewrite fetchRepositories_state. repeat split.
Qed.

(** ** Focus and blur *)

Lemma alter_keeps_input_type (f : HTMLInputElement -> HTMLInputElement)
    (d : gmap elem_id HTMLInputElement) el id :
  (forall e, input_type (f e) = input_type e) ->
  input_type <$> alter f el d !! id = input_type <$> d !! id.
Proof.
  intros Hf. unfold elem_id in *.
  destruct (decide (el = id)) as [-> | Hne].
  - rewrite lookup_alter_eq. destruct (d !! id); simpl; [rewrite Hf |]; reflexivity.
  - rewrite lookup_alter_ne by exact Hne. reflexivity.
Qed.

Lemma highlighted_types r d id :
  input_type <$> highlighted r d !! id = input_type <$> d !! id.
Proof.
  destruct r as [el |]; [| reflexivity]. unfold highlighted.
  rewrite !alter_keeps_input_type by reflexivity. reflexivity.
Qed.

Lemma blurred_types r d id :
  input_type <$> blurred r d !! id = input_type <$> d !! id.
Proof.
  destruct r as [el |]; [| reflexivity]. unfold blurred.
  rewrite alter_keeps_input_type by reflexivity. reflexivity.
Qed.

Lemma highlighted_other r (d : gmap elem_id HTMLInputElement) id :
  r <> Some id -> highlighted r d !! id = d !! id.
Proof.
  intros Hne. destruct r as [el |]; [| reflexivity]. unfold highlighted, elem_id in *.
  rewrite !lookup_alter_ne by congruence. reflexivity.
Qed.

Lemma blurred_other r (d : gmap elem_id HTMLInputElement) id :
  r <> Some id -> blurred r d !! id = d !! id.
Proof.
  intros Hne. destruct r as [el |]; [| reflexivity]. unfold blurred, elem_id in *.
  rewrite lookup_alter_ne by congruence. reflexivity.
Qed.

Lemma highlighted_at el (d : gmap elem_id HTMLInputElement) e :
  d !! el = Some e ->
  highlighted (Some el) d !! el
  = Some {| input_type := input_type e; style := focused_style |}.
Proof.
  intros Hd. unfold highlighted, elem_id in *. rewrite !lookup_alter_eq, Hd. reflexivity.
Qed.

Lemma blurred_at el (d : gmap elem_id HTMLInputElement) e :
  d !! el = Some e ->
  blurred (Some el) d !! el
  = Some {| input_type := input_type e; style := blurred_style |}.
Proof.
  intros Hd. unfold blurred, elem_id in *. rewrite lookup_alter_eq, Hd. reflexivity.
Qed.

Lemma highlighted_twice r d : highlighted r (highlighted r d) = highlighted r d.
Proof.
  destruct r as [el |]; [| reflexivity]. unfold highlighted.
  apply map_eq. intros j. unfold elem_id in *.
  destruct (decide (el = j)) as [-> | Hne].
  - rewrite !lookup_alter_eq. destruct (d !! j); reflexivity.
  - rewrite !lookup_alter_ne by exact Hne. reflexivity.
Qed.

Lemma blurred_twice r d : blurred r (blurred r d) = blurred r d.
Proof.
  destruct r as [el |]; [| reflexivity]. unfold blurred.
  apply map_eq. intros j. unfold elem_id in *.
  destruct (decide (el = j)) as [-> | Hne].
  - rewrite !lookup_alter_eq. destruct (d !! j); reflexivity.
  - rewrite !lookup_alter_ne by exact Hne. reflexivity.
Qed.

(** The handlers as [focus()] and [blur()] run them: the field has just
    lost or gained the focus, so the [blur()] or [focus()] inside the
    handler finds nothing to do and no deeper handler runs. *)
Lemma onBlur_at_quiet n st :
  (forall f, current (userInput st) = Some f -> activeElement st <> Some f) ->
  onBlur_at (S n) st
  = (Done tt, set_document (blurred (current (submitButton st)) (document st)) st).
Proof.
  intros Hquiet. destruct st as [u h [p] [f] d a rs]. simpl in *.
  unfold blurElement_with, update_element, blur_with. run_M.
  destruct p as [p |], f as [f |]; simpl; try reflexivity;
    (case_decide as Ha; [exfalso; exact (Hquiet f eq_refl Ha) | reflexivity]).
Qed.

Lemma onFocus_at_quiet n st :
  (forall f, current (userInput st) = Some f -> activeElement st = Some f) ->
  onFocus_at (S n) st
  = (Done tt, set_document (highlighted (current (submitButton st)) (document st)) st).
Proof.
  intros Hquiet. destruct st as [u h [p] [f] d a rs]. simpl in *.
  unfold highlightElement_with, update_element, focus_with. run_M.
  destruct p as [p |], f as [f |]; simpl; try reflexivity;
    (case_decide as Ha; [reflexivity | exfalso; exact (Ha (Hquiet f eq_refl))]).
Qed.

Arguments onBlur_at : simpl never.
Arguments onFocus_at : simpl never.
Arguments highlighted : simpl never.
Arguments blurred : simpl never.

(** [el.focus()] and [el.blur()] in closed form, for any room left to the
    handlers. *)
Lemma focus_with_run n el st :
  focus_with (onBlur_at (S n)) (onFocus_at (S n)) el st
  = if decide (activeElement st = Some el) then (Done tt, st)
    else (Done tt, set_activeElement (Some el) (set_document (focus_document st el) st)).
Proof.
  unfold focus_with. case_decide as Hactive; [reflexivity |].
  unfold focus_document, dispatch. run_M.
  destruct (activeElement st) as [old |] eqn:Hold.
  - simpl. destruct (decide (current (userInput st) = Some old)) as [Hf | Hf].
    + rewrite onBlur_at_quiet by (simpl; intros; discriminate). simpl.
      destruct (decide (current (userInput st) = Some el)) as [Hf' | Hf'];
        [congruence | reflexivity].
    + simpl. destruct (decide (current (userInput st) = Some el)) as [Hf' | Hf'];
        [| reflexivity].
      rewrite onFocus_at_quiet by (simpl; intros; congruence). reflexivity.
  - simpl. destruct (decide (current (userInput st) = Some el)) as [Hf' | Hf'];
      [| reflexivity].
    rewrite onFocus_at_quiet by (simpl; intros; congruence). reflexivity.
Qed.

Lemma blur_with_run n el st :
  blur_with (onBlur_at (S n)) el st
  = if decide (activeElement st = Some el)
    then (Done tt, set_activeElement None (set_document (blur_document st el) st))
    else (Done tt, st).
Proof.
  unfold blur_with. case_decide as Hactive; [| reflexivity].
  unfold blur_document, dispatch. run_M.
  destruct (decide (current (userInput st) = Some el)) as [Hf | Hf].
  - rewrite onBlur_at_quiet by (simpl; intros; discriminate). reflexivity.
  - destruct st; reflexivity.
Qed.

Lemma focus_run el st :
  focus el st
  = if decide (activeElement st = Some el) then (Done tt, st)
    else (Done tt, set_activeElement (Some el) (set_document (focus_document st el) st)).
Proof. apply (focus_with_run 0). Qed.

Lemma blur_run el st :
  blur el st
  = if decide (activeElement st = Some el)
    then (Done tt, set_activeElement None (set_document (blur_document st el) st))
    else (Done tt, st).
Proof. apply (blur_with_run 0). Qed.

Lemma highlightElement_run ref self st :
  highlightElement ref self st
  = match current self with
    | Some el => focus el (set_document (highlighted (current ref) (document st)) st)
    | None => (Done tt, set_document (highlighted (current ref) (document st)) st)
    end.
Proof.
  destruct st, ref as [[r |]], self as [[s |]]; reflexivity.
Qed.

Lemma blurElement_run ref self st :
  blurElement ref self st
  = match current self with
    | Some el => blur el (set_document (blurred (current ref) (document st)) st)
    | None => (Done tt, set_document (blurred (current ref) (document st)) st)
    end.
Proof.
  destruct st, ref as [[r |]], self as [[s |]]; reflexivity.
Qed.

Lemma focus_document_types st el id :
  input_type <$> focus_document st el !! id = input_type <$> document st !! id.
Proof.
  unfold focus_document.
  destruct (activeElement st) as [old |]; repeat case_decide;
    rewrite ?highlighted_types, ?blurred_types; reflexivity.
Qed.

Lemma focus_document_other st el id :
  current (submitButton st) <> Some id ->
  focus_document st el !! id = document st !! id.
Proof.
  intros Hne. unfold focus_document.
  destruct (activeElement st) as [old |]; repeat case_decide;
    rewrite ?highlighted_other, ?blurred_other by exact Hne; reflexivity.
Qed.

Lemma blur_document_types st el id :
  input_type <$> blur_document st el !! id = input_type <$> document st !! id.
Proof.
  unfold blur_document. case_decide; rewrite ?blurred_types; reflexivity.
Qed.

Lemma blur_document_other st el id :
  current (submitButton st) <> Some id ->
  blur_document st el !! id = document st !! id.
Proof.
  intros Hne. unfold blur_document.
  case_decide; rewrite ?blurred_other by exact Hne; reflexivity.
Qed.

Lemma restyles_refl other st : restyles other st st.
Proof. repeat split. Qed.

Lemma restyles_trans other st1 st2 st3 :
  restyles other st1 st2 -> restyles other st2 st3 -> restyles other st1 st3.
Proof.
  intros (Hu1 & Hh1 & Hr1 & Hs1 & Hi1 & Ht1 & Hd1) (Hu2 & Hh2 & Hr2 & Hs2 & Hi2 & Ht2 & Hd2).
  unfold restyles. split; [congruence |]. split; [congruence |].
  split; [congruence |]. split; [congruence |]. split; [congruence |]. split.
  - intros id. rewrite Ht2. apply Ht1.
  - intros id Hp Ho. rewrite Hd2 by (rewrite ?Hs1; assumption). apply Hd1; assumption.
Qed.

Lemma focus_restyles other el st :
  fst (focus el st) = Done tt
  /\ restyles other st (snd (focus el st))
  /\ activeElement (snd (focus el st)) = Some el.
Proof.
  rewrite focus_run. case_decide as Ha; simpl.
  - split; [reflexivity |]. split; [apply restyles_refl | exact Ha].
  - split; [reflexivity |]. split; [| reflexivity].
    repeat split; simpl.
    + apply focus_document_types.
    + intros id Hp _. apply focus_document_other. exact Hp.
Qed.

Lemma blur_restyles other el st :
  fst (blur el st) = Done tt
  /\ restyles other st (snd (blur el st))
  /\ activeElement (snd (blur el st))
     = if decide (activeElement st = Some el) then None else activeElement st.
Proof.
  rewrite blur_run. case_decide as Ha; simpl.
  - split; [reflexivity |]. split; [| reflexivity].
    repeat split; simpl.
    + apply blur_document_types.
    + intros id Hp _. apply blur_document_other. exact Hp.
  - split; [reflexivity |]. split; [apply restyles_refl | reflexivity].
Qed.

Lemma set_document_restyles r st d :
  (d = highlighted r (document st) \/ d = blurred r (document st)) ->
  restyles r st (set_document d st).
Proof.
  intros Hd. repeat split; simpl.
  - intros id. destruct Hd as [-> | ->]; [apply highlighted_types | apply blurred_types].
  - intros id _ Ho.
    destruct Hd as [-> | ->]; [apply highlighted_other | apply blurred_other]; exact Ho.
Qed.

Lemma highlightElement_restyles ref self st :
  fst (highlightElement ref self st) = Done tt
  /\ restyles (current ref) st (snd (highlightElement ref self st)).
Proof.
  rewrite highlightElement_run.
  pose proof (set_document_restyles (current ref) st _ (or_introl eq_refl)) as Hset.
  destruct (current self) as [el |]; simpl; [| split; [reflexivity | exact Hset]].
  destruct (focus_restyles (current ref) el
              (set_document (highlighted (current ref) (document st)) st))
    as (Hdone & Hres & _).
  split; [exact Hdone |]. exact (restyles_trans _ _ _ _ Hset Hres).
Qed.

Lemma blurElement_restyles ref self st :
  fst (blurElement ref self st) = Done tt
  /\ restyles (current ref) st (snd (blurElement ref self st)).
Proof.
  rewrite blurElement_run.
  pose proof (set_document_restyles (current ref) st _ (or_intror eq_refl)) as Hset.
  destruct (current self) as [el |]; simpl; [| split; [reflexivity | exact Hset]].
  destruct (blur_restyles (current ref) el
              (set_document (blurred (current ref) (document st)) st))
    as (Hdone & Hres & _).
  split; [exact Hdone |]. exact (restyles_trans _ _ _ _ Hset Hres).
Qed.



(** On the refs of the page, attached: the submit control gets the focused
    border and the username field the focus, whichever way the call goes. *)
Lemma highlightElement_page st sb ui :
  current (submitButton st) = Some sb ->
  current (userInput st) = Some ui ->
  highlightElement (submitButton st) (userInput st) st
  = (Done tt,
     set_activeElement (Some ui)
       (set_document (highlighted (Some sb) (document st)) st)).
Proof.
  intros Hsubmit Hinput. rewrite highlightElement_run, Hinput, Hsubmit, focus_run. simpl.
  case_decide as Ha.
  - destruct st; simpl in *; subst; reflexivity.
  - unfold focus_document. simpl. rewrite Hinput, Hsubmit.
    destruct (activeElement st) as [old |]; simpl.
    + destruct (decide (Some ui = Some old)) as [Heq | _]; [congruence |].
      destruct (decide (Some ui = Some ui)) as [_ | Hne]; [| congruence].
      rewrite highlighted_twice. reflexivity.
    + destruct (decide (Some ui = Some ui)) as [_ | Hne]; [| congruence].
      rewrite highlighted_twice. reflexivity.
Qed.

(** C7: on a page where both refs are attached, when the username field
    gains the focus its handler gives the submit control the focused border
    and the username field is the active element afterwards; the same holds
    for [highlightElement] called on the two refs whichever element was
    active before. *)
Theorem focus_highlights_submit_and_stays st sb ui el
    (Hsubmit : current (submitButton st) = Some sb)
    (Hinput : current (userInput st) = Some ui)
    (Hel : document st !! sb = Some el) :
  (fst (username_gains_focus st) = Done tt
   /\ style <$> document (snd (username_gains_focus st)) !! sb = Some focused_style
   /\ activeElement (snd (username_gains_focus st)) = Some ui)
  /\ (fst (highlightElement (submitButton st) (userInput st) st) = Done tt
      /\ style <$> document (snd (highlightElement (submitButton st) (userInput st) st)) !! sb
         = Some focused_style
      /\ activeElement (snd (highlightElement (submitButton st) (userInput st) st)) = Some ui).
Proof.
  assert (Hstyle : style <$> highlighted (Some sb) (document st) !! sb = Some focused_style)
    by (rewrite (highlighted_at sb _ el Hel); reflexivity).
  split.
  - unfold username_gains_focus, onFocus. run_M.
    pose proof (highlightElement_page (set_activeElement (current (userInput st)) st)
                  sb ui Hsubmit Hinput) as Hrun.
    simpl in Hrun. rewrite Hrun. simpl. repeat split. exact Hstyle.
  - rewrite (highlightElement_page st sb ui) by assumption.
    simpl. repeat split. exact Hstyle.
Qed.

Lemma focus_highlights_submit_and_stays_witness :
  style <$> document (snd (username_gains_focus (mounted ""))) !! 1 = Some focused_style
  /\ activeElement (snd (username_gains_focus (mounted ""))) = Some 0.
Proof.
  pose proof (focus_highlights_submit_and_stays (mounted "") 1 0
                {| input_type := "submit"; style := no_style |}
                eq_refl eq_refl eq_refl) as [[_ [Hstyle Hactive]] _].
  split; [exact Hstyle | exact Hactive].
Defined.



(** ** Submission *)

Lemma onSubmit_run net st :
  onSubmit net st
  = (Done tt, set_requests (requests st ++ [repos_request (user st)]) st).
Proof.
  unfold onSubmit. run_M.
  destruct (fetchRepositories_returns net (user st) st) as [p Hp].
  pose proof (fetchRepositories_state net (user st) st) as Hst.
  destruct (fetchRepositories net (user st) st) as [o st']; simpl in *; subst.
  reflexivity.
Qed.

(** The page [octocat] on a network that answers the first request, the one
    of the submission, with the record Hello-World and every later one with
    status 404.  The render after the submission makes the second request
    and gets the error; the rendering the specification gives for that
    error has no entry, while the one it gives for the result of the
    submission has one. *)
Lemma render_after_submission_gets_its_own_result :
  let net := respond_first one_repository not_found in
  let st := mounted "octocat" in
  fst (fetchRepositories net (user st) st) = Done (Fulfilled (VArr [of_json hello_world]))
  /\ fst (RepoList_repositories net (snd (onSubmit net st)))
     = Done (Fulfilled (VError "Error" "HTTP error! Status code: 404"))
  /\ spec_render (Fulfilled (VError "Error" "HTTP error! Status code: 404")) = []
  /\ length (spec_render (Fulfilled (VArr [of_json hello_world]))) = 1.
Proof. repeat split. Qed.

(** C2, as stated, fails: on the page and network of
    [render_after_submission_gets_its_own_result] the fetch started by the
    submission is fulfilled with the record Hello-World, and what is
    displayed afterwards is not the rendering of that result: the render
    works from its own request, which was answered with status 404. *)
Lemma submission_result_is_not_rendered :
  ~ submission_result_is_rendered (respond_first one_repository not_found)
      (mounted "octocat").
Proof.
  intros Hclaim.
  specialize (Hclaim (Fulfilled (VArr [of_json hello_world])) eq_refl).
  unfold displayed in Hclaim. rewrite RepoList_run in Hclaim.
  discriminate Hclaim.
Qed.

(** C2, amended: a submission calls [fetchRepositories] once, with the
    value of [user], and drops the promise: the handler returns with the
    page unchanged but for the logged request.  A render of [RepoList]
    after it calls [fetchRepositories] again, and the promise it works from
    is the one of that second call: it is the same for two networks that
    answer the second request alike, however each of them answered the
    request of the submission. *)
Theorem submission_fetches_and_discards net1 net2 st
    (Hsame : net1 (S (length (requests st))) (repos_request (user st))
             = net2 (S (length (requests st))) (repos_request (user st))) :
  onSubmit net1 st
  = (Done tt, set_requests (requests st ++ [repos_request (user st)]) st)
  /\ RepoList net1 (snd (onSubmit net1 st))
     = (repositories ← RepoList_repositories net1;
        listItems ← listItems_of "" repositories;
        mret (Elem "ul" [] listItems)) (snd (onSubmit net1 st))
  /\ requests (snd (RepoList_repositories net1 (snd (onSubmit net1 st))))
     = (requests st ++ [repos_request (user st); repos_request (user st)])%list
  /\ fst (RepoList_repositories net1 (snd (onSubmit net1 st)))
     = fst (RepoList_repositories net2 (snd (onSubmit net2 st))).
Proof.
  rewrite !onSubmit_run. simpl. split; [reflexivity |]. split; [reflexivity |].
  unfold RepoList_repositories. run_M. split.
  - rewrite fetchRepositories_state. simpl. rewrite <- app_assoc. reflexivity.
  - apply fetchRepositories_fst_ext. simpl.
    rewrite length_app. simpl. rewrite Nat.add_1_r. exact Hsame.
Qed.

Lemma submission_fetches_and_discards_witness :
  fst (fetchRepositories (respond_first one_repository not_found) "octocat"
         (mounted "octocat"))
  <> fst (fetchRepositories (respond not_found) "octocat" (mounted "octocat"))
  /\ fst (RepoList_repositories (respond_first one_repository not_found)
            (snd (onSubmit (respond_first one_repository not_found) (mounted "octocat"))))
     = fst (RepoList_repositories (respond not_found)
              (snd (onSubmit (respond not_found) (mounted "octocat")))).
Proof.
  split; [discriminate |].
  apply (submission_fetches_and_discards (respond_first one_repository not_found)
           (respond not_found) (mounted "octocat")).
  reflexivity.
Defined.
(** * Further properties of the code *)

(** ** Strings *)

Lemma string_length_app (s1 s2 : string) :
  String.length (s1 +:+ s2) = String.length s1 + String.length s2.
Proof. induction s1 as [| c s1 IH]; simpl; [reflexivity | rewrite IH; reflexivity]. Qed.

Lemma string_app_inv_tail (s1 s2 tail : string) :
  s1 +:+ tail = s2 +:+ tail -> s1 = s2.
Proof.
  revert s2. induction s1 as [| c s1 IH]; intros [| c' s2] Heq; simpl in Heq.
  - reflexivity.
  - apply (f_equal String.length) in Heq.
    rewrite !string_length_app in Heq. simpl in Heq. lia.
  - apply (f_equal String.length) in Heq.
    rewrite !string_length_app in Heq. simpl in Heq. lia.
  - injection Heq as -> Heq. f_equal. apply IH. exact Heq.
Qed.

Lemma string_of_N_inj (n1 n2 : N) : string_of_N n1 = string_of_N n2 -> n1 = n2.
Proof.
  unfold string_of_N. intros Heq.
  assert (Hnonnil : forall n, N.to_uint n <> Decimal.Nil).
  { intros [| p]; [discriminate | apply DecimalPos.Unsigned.to_uint_nonnil]. }
  pose proof (NilZero.usu _ (Hnonnil n1)) as H1.
  pose proof (NilZero.usu _ (Hnonnil n2)) as H2.
  rewrite Heq in H1. rewrite H1 in H2. injection H2 as H2.
  apply DecimalN.Unsigned.to_uint_inj. exact H2.
Qed.

(** ** More on [fetchRepositories] *)

(** X1: the user name goes into the URL as it is typed, with no escaping
    and no trimming, so two user names give the same URL only if they are
    the same text. *)
Theorem repos_url_inj_iff username1 username2 :
  repos_url username1 = repos_url username2 <-> username1 = username2.
Proof.
  split; [| intros ->; reflexivity].
  unfold repos_url. intros Heq.
  apply (String.app_inj "api.github.com/users/") in Heq.
  exact (string_app_inv_tail _ _ _ Heq).
Qed.

Lemma http_error_inj_iff r1 r2 :
  http_error r1 = http_error r2 <-> status r1 = status r2.
Proof.
  unfold http_error. split.
  - intros Heq. injection Heq as Heq. apply string_of_N_inj. exact Heq.
  - intros ->. reflexivity.
Qed.

(** X2: when two requests are both answered with a status outside 200-299,
    the two promises are fulfilled with the same error exactly when the two
    statuses are equal: the body of such a response is never read, and the
    status can be told from the error. *)
Theorem non_ok_results_differ_by_status net1 net2 username1 username2 st1 st2 r1 r2
    (Hnet1 : net1 (length (requests st1)) (repos_request username1) = NetResponse r1)
    (Hnet2 : net2 (length (requests st2)) (repos_request username2) = NetResponse r2)
    (Hok1 : ok r1 = false)
    (Hok2 : ok r2 = false) :
  fst (fetchRepositories net1 username1 st1) = fst (fetchRepositories net2 username2 st2)
  <-> status r1 = status r2.
Proof.
  assert (H1 : fetch_failure (net1 (length (requests st1)) (repos_request username1))
                 (http_error r1)) by (rewrite Hnet1; constructor; exact Hok1).
  assert (H2 : fetch_failure (net2 (length (requests st2)) (repos_request username2))
                 (http_error r2)) by (rewrite Hnet2; constructor; exact Hok2).
  rewrite (fetchRepositories_on_failure _ _ _ _ H1).
  rewrite (fetchRepositories_on_failure _ _ _ _ H2).
  rewrite <- http_error_inj_iff. split; congruence.
Qed.

Lemma non_ok_results_differ_by_status_witness :
  fst (fetchRepositories (respond not_found) "octocat" (mounted ""))
  = fst (fetchRepositories
           (respond {| status := 404; body := BodySyntaxError "Unexpected token <" |})
           "nobody" (mounted "")).
Proof.
  apply (non_ok_results_differ_by_status
           (respond not_found)
           (respond {| status := 404; body := BodySyntaxError "Unexpected token <" |})
           "octocat" "nobody" (mounted "") (mounted "") not_found
           {| status := 404; body := BodySyntaxError "Unexpected token <" |});
    reflexivity.
Defined.

(** X3: the promise stays pending exactly when the network never answers
    the request or, after a response with a status in 200-299, the body
    never finishes arriving; nothing in the function times out. *)
Theorem fetchRepositories_pending_iff net username st :
  fst (fetchRepositories net username st) = Done Pending
  <-> net (length (requests st)) (repos_request username) = NetPending
      \/ exists r,
           net (length (requests st)) (repos_request username) = NetResponse r
           /\ ok r = true /\ body r = BodyPending.
Proof.
  run_fetch. unfold repos_request.
  by_network net st; [by_response r |..]; simpl; split;
    try discriminate; try (intros _; auto; fail).
  - intros [Hp | (r' & Hr & _ & Hb)]; [discriminate |].
    injection Hr as <-. congruence.
  - intros [Hp | (r' & Hr & _ & Hb)]; [discriminate |].
    injection Hr as <-. congruence.
  - intros _. right. exists r. auto.
  - intros [Hp | (r' & Hr & Ho & _)]; [discriminate |].
    injection Hr as <-. congruence.
  - intros [Hp | (r' & Hr & _)]; discriminate.
Qed.

Lemma of_json_is_not_error j : is_error (of_json j) = false.
Proof. destruct j; reflexivity. Qed.

Lemma fetch_failure_is_error o v : fetch_failure o v -> is_error v = true.
Proof. intros H; inversion H; reflexivity. Qed.

(** The promise is fulfilled only with the data of a success or the error
    of a failure. *)
Lemma fetchRepositories_fulfilled_inv net username st v :
  fst (fetchRepositories net username st) = Done (Fulfilled v) ->
  fetch_success (net (length (requests st)) (repos_request username)) v
  \/ fetch_failure (net (length (requests st)) (repos_request username)) v.
Proof.
  run_fetch. unfold repos_request.
  by_network net st; [by_response r |..]; simpl; intros Heq;
    try discriminate; injection Heq as <-.
  - left. constructor; assumption.
  - right. constructor; assumption.
  - right. apply http_failure. assumption.
  - right. constructor.
Qed.

(** X4: although the result carries no tag, a caller that has the fulfilled
    value can tell the two cases apart at run time: the value is an [Error]
    object exactly when the fetch failed, and parsed JSON is never one. *)
Theorem fulfilled_value_is_error_iff_failed net username st v
    (Hv : fst (fetchRepositories net username st) = Done (Fulfilled v)) :
  (is_error v = true
   <-> fetch_failure (net (length (requests st)) (repos_request username)) v)
  /\ (is_error v = false
      <-> fetch_success (net (length (requests st)) (repos_request username)) v).
Proof.
  destruct (fetchRepositories_fulfilled_inv net username st v Hv) as [Hs | Hf].
  - assert (He : is_error v = false)
      by (inversion Hs; apply of_json_is_not_error).
    split; split; auto; try congruence.
    intros Hf. apply fetch_failure_is_error in Hf. congruence.
  - pose proof (fetch_failure_is_error _ _ Hf) as He.
    split; split; auto; try congruence.
    intros Hs. inversion Hs as [r j Hok Hbody Hnet Hval]; subst.
    rewrite of_json_is_not_error in He. discriminate.
Qed.

Lemma fulfilled_value_is_error_iff_failed_witness :
  is_error (VArr [of_json hello_world]) = false
  <-> fetch_success (respond one_repository 0 (repos_request "octocat"))
        (VArr [of_json hello_world]).
Proof.
  apply (fulfilled_value_is_error_iff_failed (respond one_repository) "octocat"
           (mounted "") (VArr [of_json hello_world]) eq_refl).
Defined.



(** ** More on focus and blur *)

(** X6: [highlightElement] and [blurElement] write to no element other
    than the one their first ref points to and the submit control of the
    page, which the handlers of the username field restyle when [focus()]
    or [blur()] runs them; and they leave both refs of the page as they
    are. *)
Theorem highlight_and_blur_touch_only_ref ref self st id
    (Hother : current ref <> Some id)
    (Hsubmit : current (submitButton st) <> Some id) :
  (document (snd (highlightElement ref self st)) !! id = document st !! id
   /\ submitButton (snd (highlightElement ref self st)) = submitButton st
   /\ userInput (snd (highlightElement ref self st)) = userInput st)
  /\ (document (snd (blurElement ref self st)) !! id = document st !! id
      /\ submitButton (snd (blurElement ref self st)) = submitButton st
      /\ userInput (snd (blurElement ref self st)) = userInput st).
Proof.
  destruct (highlightElement_restyles ref self st) as (_ & _ & _ & _ & Hs1 & Hi1 & _ & Hd1).
  destruct (blurElement_restyles ref self st) as (_ & _ & _ & _ & Hs2 & Hi2 & _ & Hd2).
  repeat split; auto.
Qed.

Lemma highlight_and_blur_touch_only_ref_witness :
  document (snd (highlightElement {| current := Some 1 |} {| current := Some 0 |}
                   (mounted ""))) !! 0
  = Some {| input_type := "text"; style := no_style |}.
Proof.
  destruct (highlight_and_blur_touch_only_ref
              {| current := Some 1 |} {| current := Some 0 |} (mounted "") 0)
    as [[Hdoc _] _]; [discriminate | discriminate |].
  etrans; [exact Hdoc | reflexivity].
Defined.

(** X7: a blur after a highlight does not bring the other control back to
    the inline style it had: all four sides of its border, the left one
    that the highlight had coloured apart included, read [none], and no
    element has the focus. *)
Theorem blur_after_highlight_sets_border_none st sb ui el
    (Hel : document st !! sb = Some el) :
  let ref := {| current := Some sb |} in
  let self := {| current := Some ui |} in
  let st' := snd (blurElement ref self (snd (highlightElement ref self st))) in
  document st' !! sb = Some {| input_type := input_type el; style := blurred_style |}
  /\ activeElement st' = None.
Proof.
  intros ref self st'. subst st'.
  set (st1 := snd (highlightElement ref self st)).
  assert (Hactive : activeElement st1 = Some ui).
  { subst st1. rewrite highlightElement_run. simpl.
    apply (focus_restyles None ui). }
  assert (Hsb : exists e1, document st1 !! sb = Some e1 /\ input_type e1 = input_type el).
  { destruct (highlightElement_restyles ref self st) as (_ & _ & _ & _ & _ & _ & Ht & _).
    specialize (Ht sb). fold st1 in Ht. rewrite Hel in Ht. simpl in Ht.
    destruct (document st1 !! sb) as [e1 |]; [| discriminate].
    exists e1. split; [reflexivity |]. simpl in Ht. congruence. }
  destruct Hsb as (e1 & He1 & Htype).
  rewrite blurElement_run. simpl. rewrite blur_run. simpl.
  destruct (decide (activeElement st1 = Some ui)) as [_ | Hne]; [| contradiction].
  simpl. split; [| reflexivity].
  pose proof (blurred_at sb (document st1) e1 He1) as Hfirst.
  unfold blur_document. simpl.
  destruct (decide (current (userInput st1) = Some ui)) as [_ | _]; simpl.
  - destruct (decide (current (submitButton st1) = Some sb)) as [Hp | Hp].
    + rewrite Hp, (blurred_at sb _ _ Hfirst). simpl. rewrite Htype. reflexivity.
    + rewrite (blurred_other _ _ sb Hp), Hfirst, Htype. reflexivity.
  - rewrite Hfirst, Htype. reflexivity.
Qed.

Lemma blur_after_highlight_sets_border_none_witness :
  document (snd (blurElement {| current := Some 1 |} {| current := Some 0 |}
                   (snd (highlightElement {| current := Some 1 |} {| current := Some 0 |}
                           (mounted ""))))) !! 1
  = Some {| input_type := "submit"; style := blurred_style |}.
Proof.
  apply (blur_after_highlight_sets_border_none (mounted "") 1 0
           {| input_type := "submit"; style := no_style |} eq_refl).
Defined.

(** X8: when the username field loses the focus to another element, the
    handler resets the border of the submit control and does not take the
    focus away from the element that now has it. *)
Theorem blur_handler_leaves_new_focus st sb ui el to
    (Hsubmit : current (submitButton st) = Some sb)
    (Hinput : current (userInput st) = Some ui)
    (Hel : document st !! sb = Some el)
    (Hto : to <> Some ui) :
  fst (username_loses_focus to st) = Done tt
  /\ activeElement (snd (username_loses_focus to st)) = to
  /\ document (snd (username_loses_focus to st)) !! sb
     = Some {| input_type := input_type el; style := blurred_style |}.
Proof.
  unfold username_loses_focus, onBlur. run_M.
  rewrite blurElement_run, Hinput, Hsubmit, blur_run. simpl.
  destruct (decide (to = Some ui)) as [Heq | _]; [contradiction |].
  simpl. repeat split. apply blurred_at. exact Hel.
Qed.

Lemma blur_handler_leaves_new_focus_witness :
  activeElement (snd (username_loses_focus (Some 1) (mounted ""))) = Some 1.
Proof.
  destruct (blur_handler_leaves_new_focus (mounted "") 1 0
              {| input_type := "submit"; style := no_style |} (Some 1)
              eq_refl eq_refl eq_refl) as (_ & Hactive & _); [discriminate |].
  exact Hactive.
Defined.

(** On other refs a second call can undo the first.  With the username
    field focused and both refs on the submit control, [focus()] takes the
    focus from the field, whose blur handler resets the border that the
    call had just set; the second call finds the focus in place and leaves
    the border set. *)
Lemma highlightElement_twice_on_other_refs :
  let st := set_activeElement (Some 0) (mounted "") in
  let ref := {| current := Some 1 |} in
  let once := snd (highlightElement ref ref st) in
  let twice := snd (highlightElement ref ref once) in
  style <$> document once !! 1 = Some blurred_style
  /\ style <$> document twice !! 1 = Some focused_style.
Proof. split; reflexivity. Qed.

(** X9: on the refs the page passes, the submit ref first and the field
    ref second, a second [highlightElement] changes nothing more than the
    first did, and the same holds for [blurElement]. *)
Theorem highlight_and_blur_idempotent st :
  snd (highlightElement (submitButton st) (userInput st)
         (snd (highlightElement (submitButton st) (userInput st) st)))
  = snd (highlightElement (submitButton st) (userInput st) st)
  /\ snd (blurElement (submitButton st) (userInput st)
            (snd (blurElement (submitButton st) (userInput st) st)))
     = snd (blurElement (submitButton st) (userInput st) st).
Proof.
  destruct st as [u h [p] [f] d a rs]. simpl.
  rewrite !highlightElement_run, !blurElement_run. simpl.
  destruct f as [f |]; simpl.
  - rewrite !focus_run, !blur_run. simpl.
    split;
      repeat (match goal with
              | |- context [decide ?P] => destruct (decide P); simpl in *; try congruence
              end);
      unfold focus_document, blur_document, set_document, set_activeElement; simpl;
      repeat (match goal with
              | |- context [decide ?P] => destruct (decide P); simpl in *; try congruence
              end);
      rewrite ?highlighted_twice, ?blurred_twice; try reflexivity.
    all: destruct a as [old |]; simpl;
      repeat (match goal with
              | |- context [decide ?P] => destruct (decide P); simpl in *; try congruence
              end);
      rewrite ?highlighted_twice, ?blurred_twice; reflexivity.
  - rewrite highlighted_twice, blurred_twice. split; reflexivity.
Qed.

(** X15: the guards on the refs hold.  With a null second ref neither
    function calls [focus()] or [blur()]: the focus stays where it is and
    the one write is the one to the element of the first ref.  With both
    refs null the page is left exactly as it was. *)
Theorem null_refs_are_skipped ref self st :
  (current self = None ->
     (activeElement (snd (highlightElement ref self st)) = activeElement st
      /\ document (snd (highlightElement ref self st))
         = highlighted (current ref) (document st))
     /\ (activeElement (snd (blurElement ref self st)) = activeElement st
         /\ document (snd (blurElement ref self st))
            = blurred (current ref) (document st)))
  /\ (current ref = None -> current self = None ->
        highlightElement ref self st = (Done tt, st)
        /\ blurElement ref self st = (Done tt, st)).
Proof.
  split.
  - intros Hself. rewrite highlightElement_run, blurElement_run, Hself.
    repeat split.
  - intros Href Hself. destruct ref as [r], self as [s], st. simpl in *. subst.
    split; reflexivity.
Qed.

Lemma null_refs_are_skipped_witness :
  highlightElement {| current := None |} {| current := None |} (mounted "octocat")
  = (Done tt, mounted "octocat")
  /\ blurElement {| current := None |} {| current := None |} (mounted "octocat")
     = (Done tt, mounted "octocat").
Proof.
  destruct (null_refs_are_skipped {| current := None |} {| current := None |}
              (mounted "octocat")) as (_ & Hboth).
  apply Hboth; reflexivity.
Defined.

(** X16: a handler that [focus()] or [blur()] runs never starts another
    one: the [focus()] or [blur()] it calls finds the focus already where
    the call would put it.  One level of handlers is therefore all that
    [focus] and [blur] need, and more room changes nothing. *)
Theorem focus_and_blur_need_one_level n el st :
  focus_with (onBlur_at (S n)) (onFocus_at (S n)) el st = focus el st
  /\ blur_with (onBlur_at (S n)) el st = blur el st
  /\ fst (focus el st) = Done tt
  /\ fst (blur el st) = Done tt.
Proof.
  rewrite focus_with_run, blur_with_run, focus_run, blur_run.
  repeat split; case_decide; reflexivity.
Qed.

(** X17: [focus()] on the username field runs the field's own focus
    handler before it returns.  So [highlightElement] with a null first ref
    and the field as second ref, called while the field does not have the
    focus, still ends with the submit control of the page carrying the
    focused border. *)
Theorem focus_reenters_the_focus_handler ref st sb ui el
    (Href : current ref = None)
    (Hsubmit : current (submitButton st) = Some sb)
    (Hinput : current (userInput st) = Some ui)
    (Hactive : activeElement st <> Some ui)
    (Hel : document st !! sb = Some el) :
  fst (highlightElement ref (userInput st) st) = Done tt
  /\ document (snd (highlightElement ref (userInput st) st)) !! sb
     = Some {| input_type := input_type el; style := focused_style |}
  /\ activeElement (snd (highlightElement ref (userInput st) st)) = Some ui.
Proof.
  rewrite highlightElement_run, Hinput, Href, focus_run. simpl.
  destruct (decide (activeElement st = Some ui)) as [Heq | _]; [contradiction |].
  simpl. repeat split.
  unfold focus_document. simpl. rewrite Hinput, Hsubmit.
  destruct (decide (Some ui = Some ui)) as [_ | Hne]; [| congruence].
  destruct (activeElement st) as [old |].
  - destruct (decide (Some ui = Some old)) as [Heq | _]; [congruence |].
    apply highlighted_at. exact Hel.
  - apply highlighted_at. exact Hel.
Qed.

Lemma focus_reenters_the_focus_handler_witness :
  document (snd (highlightElement {| current := None |} (userInput (mounted ""))
                   (mounted ""))) !! 1
  = Some {| input_type := "submit"; style := focused_style |}.
Proof.
  destruct (focus_reenters_the_focus_handler {| current := None |} (mounted "") 1 0
              {| input_type := "submit"; style := no_style |}
              eq_refl eq_refl eq_refl) as (_ & Hdoc & _);
    [discriminate | reflexivity |].
  exact Hdoc.
Defined.

(** ** Runs of events *)

Lemma evolves_cons ev evs st st1 st2 :
  evolves [ev] st st1 -> evolves evs st1 st2 -> evolves (ev :: evs) st st2.
Proof.
  intros (Hu1 & Hh1 & Hr1 & Hs1 & Hi1 & Hd1 & Ht1) (Hu2 & Hh2 & Hr2 & Hs2 & Hi2 & Hd2 & Ht2).
  assert (Hlast : last_change (ev :: evs) (user_hook st) = last_change evs (user_hook st1))
    by (rewrite Hh1; destruct ev; reflexivity).
  assert (Hiss : issued (ev :: evs) (user st)
                 = (issued [ev] (user st) ++ issued evs (user st1))%list)
    by (rewrite Hu1; destruct ev; reflexivity).
  unfold evolves. split; [congruence |]. split; [congruence |]. split.
  { rewrite Hr2, Hr1, Hiss, <- app_assoc. reflexivity. }
  split; [congruence |]. split; [congruence |]. split.
  - intros id Hid. rewrite Hd2 by (rewrite Hs1; exact Hid). apply Hd1. exact Hid.
  - intros id. rewrite Ht2. apply Ht1.
Qed.

Lemma restyles_evolves ev st st1 st' :
  issued [ev] (user st) = [] ->
  last_change [ev] (user_hook st) = user_hook st ->
  restyles (current (submitButton st)) st st1 ->
  restyles (current (submitButton st)) st1 st' ->
  evolves [ev] st st'.
Proof.
  intros Hiss Hlast H1 H2.
  destruct (restyles_trans _ _ _ _ H1 H2) as (Hu & Hh & Hr & Hs & Hi & Ht & Hd).
  unfold evolves. rewrite Hiss, Hlast, app_nil_r.
  repeat split; try assumption.
  intros id Hid. apply Hd; exact Hid.
Qed.

Lemma handle_evolves net ev st :
  fst (handle net ev st) = Done tt /\ evolves [ev] st (snd (handle net ev st)).
Proof.
  destruct ev as [v | | | to |]; simpl handle.
  - split; [reflexivity |]. unfold evolves. simpl.
    rewrite app_nil_r. repeat split.
  - rewrite onSubmit_run. split; [reflexivity |]. repeat split.
  - unfold username_gains_focus, onFocus. run_M.
    set (st1 := set_activeElement (current (userInput st)) st).
    destruct (highlightElement_restyles (submitButton st) (userInput st) st1)
      as [Hdone Hres].
    split; [exact Hdone |].
    apply (restyles_evolves FocusIn st st1); [reflexivity | reflexivity | | exact Hres].
    repeat split.
  - unfold username_loses_focus, onBlur. run_M.
    set (st1 := set_activeElement to st).
    destruct (blurElement_restyles (submitButton st) (userInput st) st1)
      as [Hdone Hres].
    split; [exact Hdone |].
    apply (restyles_evolves (FocusOut to) st st1); [reflexivity | reflexivity | | exact Hres].
    repeat split.
  - run_M. rewrite RepoList_run. split; [reflexivity |]. repeat split.
Qed.

Lemma run_events_evolves net evs st :
  fst (run_events net evs st) = Done tt
  /\ evolves evs st (snd (run_events net evs st)).
Proof.
  revert st. induction evs as [| ev evs IH]; intros st.
  - split; [reflexivity |]. unfold evolves. simpl. rewrite app_nil_r. repeat split.
  - simpl run_events. unfold mbind, M_bind.
    destruct (handle_evolves net ev st) as [Hdone Hstep].
    destruct (handle net ev st) as [o st1]. simpl in Hdone, Hstep. subst o.
    destruct (IH st1) as [Hdone' Hrest].
    split; [exact Hdone' |]. exact (evolves_cons ev evs st st1 _ Hstep Hrest).
Qed.

Lemma issued_same_request evs u :
  issued evs u = replicate (length (issued evs u)) (repos_request u).
Proof.
  induction evs as [| ev evs IH]; [reflexivity |].
  destruct ev; simpl; congruence.
Qed.

(** X10: no run of edits, submissions, focus changes and renders makes a
    handler throw or wait: every run returns, however the network answers
    and even if it never does. *)
Theorem events_never_throw_or_block net evs st :
  fst (run_events net evs st) = Done tt.
Proof. apply run_events_evolves. Qed.

(** X11: no run of events changes [user], the constant that the
    submissions and the renders pass to [fetchRepositories]: an edit stores
    the text in the cell of the hook, which holds the last text typed, and
    nothing copies it to [user]. *)
Theorem events_never_change_user net evs st :
  user (snd (run_events net evs st)) = user st
  /\ user_hook (snd (run_events net evs st)) = last_change evs (user_hook st).
Proof.
  destruct (run_events_evolves net evs st) as (_ & Hu & Hh & _). split; assumption.
Qed.

(** X12: a run of events puts on the wire one request for each submission
    and each render, in that order, and every one of them is the request
    for the value [user] had before the run, whatever was typed in between;
    edits and focus changes issue no request, and no request is ever
    removed from the log. *)
Theorem events_issue_one_request_per_submit_and_render net evs st :
  requests (snd (run_events net evs st))
  = (requests st ++ issued evs (user st))%list
  /\ issued evs (user st)
     = replicate (length (issued evs (user st))) (repos_request (user st)).
Proof.
  split; [apply run_events_evolves | apply issued_same_request].
Qed.

(** X13: no run of events re-targets a ref or writes to an element other
    than the one the submit ref points to: the username field keeps its
    inline style through every focus and blur. *)
Theorem events_write_only_to_submit_control net evs st id
    (Hother : current (submitButton st) <> Some id) :
  document (snd (run_events net evs st)) !! id = document st !! id
  /\ submitButton (snd (run_events net evs st)) = submitButton st
  /\ userInput (snd (run_events net evs st)) = userInput st.
Proof.
  destruct (run_events_evolves net evs st) as (_ & _ & _ & _ & Hs & Hi & Hd & _).
  split; [apply Hd; exact Hother |]. split; assumption.
Qed.

Lemma events_write_only_to_submit_control_witness :
  document (snd (run_events silent [FocusIn; Change "octocat"; Submit; FocusOut (Some 1)]
                   (mounted ""))) !! 0
  = Some {| input_type := "text"; style := no_style |}.
Proof.
  destruct (events_write_only_to_submit_control silent
              [FocusIn; Change "octocat"; Submit; FocusOut (Some 1)]
              (mounted "") 0) as [Hdoc _]; [discriminate |].
  etrans; [exact Hdoc | reflexivity].
Defined.

(** X14: no run of events adds an element to the page, removes one, or
    changes the type of one. *)
Theorem events_keep_elements_and_types net evs st id :
  input_type <$> document (snd (run_events net evs st)) !! id
  = input_type <$> document st !! id.
Proof.
  destruct (run_events_evolves net evs st) as (_ & _ & _ & _ & _ & _ & _ & Ht).
  apply Ht.
Qed.
